(** * A shallow embedding of cocotb/decorators.py

    The task wrappers [RunningTask], [RunningCoroutine], [RunningTest], the
    log handler of [RunningTest] and the [test] decorator's constructor are
    translated into state-passing Rocq functions.  Python exceptions are
    values of [exn]; a Python call that may raise returns a [py_result]. *)

From Stdlib Require Import String Ascii List ZArith NArith Bool Lia.
Import ListNotations.
Open Scope string_scope.
Set Warnings "-register-all".

(** ** Python values and exceptions *)

(** The Python values the module handles as data: payloads of outcomes,
    the objects yielded to the scheduler, decorator arguments. *)
Inductive pyval : Type :=
| PNone
| PBool (b : bool)
| PInt (z : Z)
| PStr (s : string)
| PType (name : string)          (* a class object, e.g. [ValueError] *)
| PTuple (xs : list pyval).

(** The exception classes the module raises or catches. *)
Inductive exc_kind : Type :=
| KReturnValue                    (* cocotb.result.ReturnValue *)
| KCoroutineComplete              (* CoroutineComplete, defined in the module *)
| KRuntimeError
| KTypeError
| KAssertionError
| KOther (name : string).

(** An exception object: its class, its payload (the message, or the
    [retval] of a [ReturnValue]) and its traceback, outermost frame first. *)
Record exn : Type := mk_exn {
  exn_kind : exc_kind;
  exn_payload : pyval;
  exn_tb : list string
}.

(** The result of a Python call: a returned value or a raised exception. *)
Inductive py_result (A : Type) : Type :=
| Ok (a : A)
| Raise (e : exn).
Arguments Ok {A} a.
Arguments Raise {A} e.

(** An exception leaving the functions [frames] (innermost last) on its way
    up: CPython adds one traceback entry per frame it unwinds. *)
Definition raised_through (frames : list string) (e : exn) : exn :=
  mk_exn (exn_kind e) (exn_payload e) (frames ++ exn_tb e).

(** ** cocotb.outcomes *)

Inductive outcome : Type :=
| Value (v : pyval)
| Error (e : exn).

(** ** Coroutines and generators

    The wrapped computation: sending it an outcome (a value for [send], an
    exception for [throw]) runs its code on the program state [world] until
    it yields a request, returns, or lets an exception escape. *)

(** Module-level state the body of a coroutine reads and writes. *)
Definition world := list (string * pyval).

Inductive step_result (C : Type) : Type :=
| SYield (request : pyval) (k : C)
| SReturn (v : pyval)
| SRaise (e : exn).
Arguments SYield {C} request k.
Arguments SReturn {C} v.
Arguments SRaise {C} e.

Inductive coro : Type :=
| Coro (step : outcome -> world -> step_result coro * world).

Definition coro_step (c : coro) : outcome -> world -> step_result coro * world :=
  match c with Coro s => s end.

(** A finished Python generator raises [StopIteration] (value [None]) when
    resumed again; a finished coroutine object raises [RuntimeError]. *)
Definition exhausted (natively_awaitable : bool) : coro :=
  Coro (fun _ w =>
    if natively_awaitable
    then (SRaise (mk_exn KRuntimeError
                   (PStr "cannot reuse already awaited coroutine") []), w)
    else (SReturn PNone, w)).

(** The objects that [RunningTask.__init__] may be handed. *)
Inductive pyobj : Type :=
| PyCoroutine (name qualname : string) (c : coro)
| PyGenerator (name qualname : string) (c : coro)
| PyAsyncGen (name qualname : string)
| PyPlain (v : pyval).

(** ** The scheduler

    Modelled from the spec: [cocotb.scheduler] is not part of
    decorators.py.  Of it the module only calls [unschedule(task)], which
    detaches the task from the scheduler's runnable set; it is recorded in
    the scheduler's request log and never resumes the task's computation. *)
Inductive sched_call : Type :=
| Unschedule (task_id : nat).

Record machine : Type := mk_machine {
  m_world : world;
  m_sched : list sched_call
}.

Definition unschedule (task_id : nat) (m : machine) : machine :=
  mk_machine (m_world m) (m_sched m ++ [Unschedule task_id]).

Definition set_world (w : world) (m : machine) : machine :=
  mk_machine w (m_sched m).

(** ** RunningTask *)

Record RunningTask : Type := mk_task {
  t_id : nat;                       (* the object's [id(self)] *)
  t_coro : coro;                    (* [self._coro] *)
  t_natively_awaitable : bool;      (* [self._natively_awaitable] *)
  t_name : string;                  (* [self.__name__] *)
  t_qualname : string;              (* [self.__qualname__] *)
  t_started : bool;                 (* [self._started] *)
  t_callbacks : list nat;           (* [self._callbacks] *)
  t_outcome : option outcome        (* [self._outcome], [None] until set *)
}.

Definition set_coro (c : coro) (t : RunningTask) : RunningTask :=
  mk_task (t_id t) c (t_natively_awaitable t) (t_name t) (t_qualname t)
    (t_started t) (t_callbacks t) (t_outcome t).

Definition set_started (b : bool) (t : RunningTask) : RunningTask :=
  mk_task (t_id t) (t_coro t) (t_natively_awaitable t) (t_name t) (t_qualname t)
    b (t_callbacks t) (t_outcome t).

Definition set_outcome (o : outcome) (t : RunningTask) : RunningTask :=
  mk_task (t_id t) (t_coro t) (t_natively_awaitable t) (t_name t) (t_qualname t)
    (t_started t) (t_callbacks t) (Some o).

(** [str(v)] for the values of [pyval]. *)
Fixpoint py_str (v : pyval) : string :=
  match v with
  | PNone => "None"
  | PBool true => "True"
  | PBool false => "False"
  | PInt _ => "<int>"
  | PStr s => s
  | PType n => "<class '" ++ n ++ "'>"
  | PTuple xs => "(" ++ String.concat ", " (map py_str xs) ++ ")"
  end.

Definition type_error (msg : string) : exn := mk_exn KTypeError (PStr msg) [].

(** ["%s isn't a valid coroutine! ..." % inst]: when [inst] is a tuple, its
    items are the format arguments, and a count other than one makes the
    formatting itself raise [TypeError]. *)
Definition invalid_coroutine_message (v : pyval) : py_result string :=
  let fmt := fun s => s ++ " isn't a valid coroutine! Did you forget to use the yield keyword?" in
  match v with
  | PTuple [] => Raise (type_error "not enough arguments for format string")
  | PTuple [x] => Ok (fmt (py_str x))
  | PTuple _ => Raise (type_error "not all arguments converted during string formatting")
  | _ => Ok (fmt (py_str v))
  end.

(** [RunningTask.__init__(self, inst)]; [oid] is the new object's id and
    [py_version] is [sys.version_info] as (major, minor). *)
Definition RunningTask_init (oid : nat) (py_version : nat * nat) (inst : pyobj)
  : py_result RunningTask :=
  let build := fun native name qualname c =>
    Ok (mk_task oid c native name qualname false [] None) in
  match inst with
  | PyCoroutine name qualname c => build true name qualname c
  | PyGenerator name qualname c => build false name qualname c
  | PyAsyncGen name qualname =>
      if Nat.leb 3 (fst py_version) && (Nat.ltb 3 (fst py_version) || Nat.leb 6 (snd py_version))
      then Raise (type_error (qualname ++ " is an async generator, not a coroutine. " ++
                              "You likely used the yield keyword instead of await."))
      else Raise (type_error (qualname ++ " isn't a valid coroutine! Did you forget to use the yield keyword?"))
  | PyPlain v =>
      match invalid_coroutine_message v with
      | Ok msg => Raise (type_error msg)
      | Raise e => Raise e
      end
  end.

(** [RunningTask.retval].  [raise self.error] in [Error.get] re-raises the
    stored exception object itself; unwinding [get] and [retval] adds their
    frames to that same object's traceback, so the stored exception is
    updated along with the raised one. *)
Definition retval (t : RunningTask) : py_result pyval * RunningTask :=
  match t_outcome t with
  | None => (Raise (mk_exn KRuntimeError (PStr "coroutine is not complete") ["retval"]), t)
  | Some (Value v) => (Ok v, t)
  | Some (Error e) =>
      let e' := raised_through ["retval"; "get"] e in
      (Raise e', set_outcome (Error e') t)
  end.

(** [RunningTask._finished] *)
Definition finished (t : RunningTask) : bool :=
  match t_outcome t with Some _ => true | None => false end.

(** Modelled from the spec: [cocotb.utils.remove_traceback_frames] is not
    part of decorators.py.  It strips the named internal framework frames
    from the front of the exception's traceback. *)
Fixpoint strip_frames (names tb : list string) : list string :=
  match names, tb with
  | n :: ns, f :: fs => if String.eqb n f then strip_frames ns fs else tb
  | _, _ => tb
  end.

Definition remove_traceback_frames (e : exn) (names : list string) : exn :=
  mk_exn (exn_kind e) (exn_payload e) (strip_frames names (exn_tb e)).

(** The exception raised by [raise CoroutineComplete()]. *)
Definition coroutine_complete : exn := mk_exn KCoroutineComplete (PStr "") ["_advance"].

(** [RunningTask._advance(self, outcome)]: [outcome.send(self._coro)] runs
    the computation; a yield is returned, every way of ending stores the
    outcome and raises a fresh [CoroutineComplete].  An exception escaping
    the computation is caught in [_advance] after unwinding [Outcome.send]
    and [_advance], hence the two frames on its traceback. *)
Definition _advance (t : RunningTask) (o : outcome) (m : machine)
  : py_result pyval * RunningTask * machine :=
  let t1 := set_started true t in
  let '(r, w') := coro_step (t_coro t) o (m_world m) in
  let m' := set_world w' m in
  let done := fun out =>
    (Raise coroutine_complete,
     set_outcome out (set_coro (exhausted (t_natively_awaitable t)) t1), m') in
  match r with
  | SYield req k => (Ok req, set_coro k t1, m')
  | SReturn v => done (Value v)                                (* StopIteration *)
  | SRaise e =>
      match exn_kind e with
      | KReturnValue => done (Value (exn_payload e))          (* ReturnValue *)
      | _ => done (Error (remove_traceback_frames
                            (raised_through ["_advance"; "send"] e)
                            ["_advance"; "send"]))           (* BaseException *)
      end
  end.

(** [RunningTask.kill(self)]; the [_debug] log line has no effect on state. *)
Definition kill (t : RunningTask) (m : machine) : RunningTask * machine :=
  match t_outcome t with
  | Some _ => (t, m)
  | None => (set_outcome (Value PNone) t, unschedule (t_id t) m)
  end.

(** ** Decorated functions and the [test] decorator *)

(** A decorated Python function; [functools.wraps] copies the name,
    qualified name, module and docstring of the function it wraps. *)
Inductive pyfunc : Type :=
| PlainFunc (name qualname module doc : string)
| TimeoutWrapper (inner : pyfunc).   (* the [async def f] built for [timeout_time] *)

Fixpoint func_name (f : pyfunc) : string :=
  match f with PlainFunc n _ _ _ => n | TimeoutWrapper g => func_name g end.
Fixpoint func_module (f : pyfunc) : string :=
  match f with PlainFunc _ _ md _ => md | TimeoutWrapper g => func_module g end.
Fixpoint func_doc (f : pyfunc) : string :=
  match f with PlainFunc _ _ _ d => d | TimeoutWrapper g => func_doc g end.

(** An instance of the [test] decorator class. *)
Record test : Type := mk_test_deco {
  td_func : pyfunc;                 (* [self._func] *)
  td_timeout_time : option Z;
  td_timeout_unit : option string;
  td_expect_fail : bool;
  td_expect_error : pyval;
  td_skip : bool;
  td_stage : option Z;
  td_im_test : bool;
  td_name : string;
  td_id : nat                       (* [self._id] *)
}.

(** [test.__init__]; [id_count] is the class attribute [test._id_count],
    returned incremented. *)
Definition test_init (id_count : nat) (f : pyfunc) (timeout_time : option Z)
    (timeout_unit : option string) (expect_fail : bool) (expect_error : pyval)
    (skip : bool) (stage : option Z) : nat * test :=
  let _id := id_count in
  let f' := match timeout_time with Some _ => TimeoutWrapper f | None => f end in
  let expect_error' :=
    match expect_error with
    | PBool true => PTuple [PType "Exception"]     (* expect_error is True *)
    | PBool false => PTuple []                     (* expect_error is False *)
    | other => other
    end in
  (S id_count,
   mk_test_deco f' timeout_time timeout_unit expect_fail expect_error' skip stage
     true (func_name f') _id).

(** ** RunningTest *)

Record RunningTest : Type := mk_running_test {
  rt_task : RunningTask;            (* the [RunningTask] part of the object *)
  rt_doc : string;                  (* [self.__doc__] *)
  rt_module : string;               (* [self.module] *)
  rt_funcname : string;             (* [self.funcname] *)
  rt_log_name : string;             (* name of the [SimLog] in [self.log] *)
  rt_started : bool;                (* [self.started] *)
  rt_start_time : Z;
  rt_start_sim_time : Z;
  rt_expect_fail : bool;
  rt_expect_error : pyval;
  rt_skip : bool;
  rt_stage : option Z;
  rt_id : nat;                      (* [self._id] *)
  rt_error_messages : list string   (* [self.error_messages] *)
}.

Definition set_rt_task (k : RunningTask) (t : RunningTest) : RunningTest :=
  mk_running_test k (rt_doc t) (rt_module t) (rt_funcname t) (rt_log_name t)
    (rt_started t) (rt_start_time t) (rt_start_sim_time t) (rt_expect_fail t)
    (rt_expect_error t) (rt_skip t) (rt_stage t) (rt_id t) (rt_error_messages t).

Definition set_error_messages (l : list string) (t : RunningTest) : RunningTest :=
  mk_running_test (rt_task t) (rt_doc t) (rt_module t) (rt_funcname t) (rt_log_name t)
    (rt_started t) (rt_start_time t) (rt_start_sim_time t) (rt_expect_fail t)
    (rt_expect_error t) (rt_skip t) (rt_stage t) (rt_id t) l.

(** [RunningTest.__init__(self, inst, parent)], through
    [RunningCoroutine.__init__] and [RunningTask.__init__]. *)
Definition RunningTest_init (oid : nat) (py_version : nat * nat) (inst : pyobj)
    (parent : test) : py_result RunningTest :=
  match RunningTask_init oid py_version inst with
  | Raise e => Raise e
  | Ok k =>
      let f := td_func parent in
      Ok (mk_running_test k (func_doc f) (func_module f) (func_name f)
            ("cocotb.test." ++ t_qualname k) false 0 0
            (td_expect_fail parent) (td_expect_error parent) (td_skip parent)
            (td_stage parent) (td_id parent) [])
  end.

(** [assert] statements are executed: CPython run without [-O]. *)
Definition python_debug : bool := true.

Definition assertion_error : exn := mk_exn KAssertionError PNone ["abort"].

(** [RunningTest.abort(self, exc)]; the [_debug] log line has no effect on
    state. *)
Definition abort (t : RunningTest) (exc : exn) (m : machine)
  : py_result unit * RunningTest * machine :=
  if python_debug && finished (rt_task t)
  then (Raise assertion_error, t, m)
  else (Ok tt, set_rt_task (set_outcome (Error exc) (rt_task t)) t,
        unschedule (t_id (rt_task t)) m).

(** ["%d" % n] *)
Fixpoint digits_of (fuel : nat) (n : N) (acc : string) : string :=
  match fuel with
  | O => acc
  | S fuel' =>
      let acc' := String (ascii_of_N (48 + N.modulo n 10)) acc in
      if N.eqb (N.div n 10) 0 then acc' else digits_of fuel' (N.div n 10) acc'
  end.

Definition py_int_str (z : Z) : string :=
  let n := Z.abs_N z in
  let ds := digits_of (S (N.size_nat n)) n "" in
  if Z.ltb z 0 then "-" ++ ds else ds.

(** [RunningTest.sort_name(self)] *)
Definition sort_name (t : RunningTest) : string :=
  match rt_stage t with
  | None => rt_module t ++ "." ++ rt_funcname t
  | Some s => rt_module t ++ "." ++ py_int_str s ++ "." ++ rt_funcname t
  end.

(** Comparison of Python [str] objects: lexicographic on code points. *)
Fixpoint py_str_lt (a b : string) : bool :=
  match a, b with
  | EmptyString, EmptyString => false
  | EmptyString, String _ _ => true
  | String _ _, EmptyString => false
  | String c a', String d b' =>
      let x := nat_of_ascii c in
      let y := nat_of_ascii d in
      if Nat.ltb x y then true else if Nat.eqb x y then py_str_lt a' b' else false
  end.

(** ** RunningTest.ErrorLogHandler *)

(** A [logging.LogRecord]: the name of the logger it was logged to and its
    message. *)
Record LogRecord : Type := mk_record {
  rec_name : string;
  rec_msg : string
}.

(** [Handler.format(record)] with no formatter set uses the default
    ['%(message)s'] format. *)
Definition format (r : LogRecord) : string := rec_msg r.

(** [ErrorLogHandler.handle(self, record)] of the handler built in
    [RunningTest.__init__]: its [fn] is [self.error_messages.append] of the
    test, so it appends to the test's own list. *)
Definition ErrorLogHandler_handle (r : LogRecord) (t : RunningTest) : RunningTest :=
  if String.eqb (rec_name r) "cocotb"
  then set_error_messages (rt_error_messages t ++ [format r]) t
  else t.

(** ** Repeated result access *)

(** The results of [n] successive reads of [task.retval]. *)
Fixpoint retval_accesses (n : nat) (t : RunningTask) : list (py_result pyval) :=
  match n with
  | O => []
  | S n' => let '(r, t') := retval t in r :: retval_accesses n' t'
  end.

(** A raised exception of the given class and payload. *)
Definition raises_like (e : exn) (r : py_result pyval) : Prop :=
  exists e', r = Raise e' /\ exn_kind e' = exn_kind e /\ exn_payload e' = exn_payload e.

(** ** Concrete tasks and tests *)

(** A coroutine body that sets the module flag ["flag"] and returns 42. *)
Definition flag_body : coro :=
  Coro (fun _ w => (SReturn (PInt 42), ("flag", PBool true) :: w)).

(** A coroutine body that raises [CoroutineComplete] itself. *)
Definition cc_exn : exn := mk_exn KCoroutineComplete (PStr "") ["body"].
Definition cc_body : coro := Coro (fun _ w => (SRaise cc_exn, w)).

Definition task_of (r : py_result RunningTask) : RunningTask :=
  match r with
  | Ok t => t
  | Raise _ => mk_task 0 flag_body false "" "" false [] None
  end.

Definition flag_task : RunningTask :=
  task_of (RunningTask_init 7 (3, 8) (PyCoroutine "body" "body" flag_body)).
Definition cc_task : RunningTask :=
  task_of (RunningTask_init 8 (3, 8) (PyCoroutine "body" "body" cc_body)).

Definition empty_machine : machine := mk_machine [] [].

Definition test_of (r : py_result RunningTest) : RunningTest :=
  match r with
  | Ok t => t
  | Raise _ => mk_running_test flag_task "" "" "" "" false 0 0 false PNone false None 0 []
  end.

(** [@cocotb.test(stage=s)] on [def name(dut)] in module ["tb"]. *)
Definition staged_test (oid : nat) (name : string) (s : option Z) : RunningTest :=
  let '(_, deco) := test_init oid (PlainFunc name name "tb" "") None None false
                      (PBool false) false s in
  test_of (RunningTest_init oid (3, 8) (PyCoroutine name name flag_body) deco).

(** [isinstance(v, bool)] *)
Definition is_bool (v : pyval) : bool :=
  match v with PBool _ => true | _ => false end.

(** [v] is a tuple whose items are all classes. *)
Definition is_type_tuple (v : pyval) : bool :=
  match v with
  | PTuple xs => forallb (fun x => match x with PType _ => true | _ => false end) xs
  | _ => false
  end.

(** The test of [tests] whose own logger is ["cocotb.test.my_test"]. *)
Definition my_test : RunningTest := staged_test 3 "my_test" None.

(** ** More of the module *)

(** [public(f)] on the [__all__] entry of [f]'s module ([None] when the
    module has none yet): [setdefault('__all__', [])], then append the name
    unless it is already there.  [f] itself is returned unchanged. *)
Definition public (name : string) (all : option (list string)) : list string :=
  let l := match all with Some l => l | None => [] end in
  if existsb (String.eqb name) l then l else (l ++ [name])%list.

(** [RunningTask.has_started(self)] *)
Definition has_started (t : RunningTask) : bool := t_started t.

(** [RunningTask.__bool__(self)]: true while the task is not finished. *)
Definition task_bool (t : RunningTask) : bool := negb (finished t).

Definition set_rt_start (now sim : Z) (t : RunningTest) : RunningTest :=
  mk_running_test (rt_task t) (rt_doc t) (rt_module t) (rt_funcname t) (rt_log_name t)
    true now sim (rt_expect_fail t) (rt_expect_error t) (rt_skip t) (rt_stage t)
    (rt_id t) (rt_error_messages t).

(** [RunningTest._advance(self, outcome)]; [now] and [sim_now] are the
    readings of [time.time()] and [get_sim_time('ns')] at the call.  The
    [log.info] line goes to the test's own logger and changes no state of
    the test. *)
Definition RunningTest_advance (t : RunningTest) (o : outcome) (now sim_now : Z)
    (m : machine) : py_result pyval * RunningTest * machine :=
  let t1 := if rt_started t then t else set_rt_start now sim_now t in
  let '(r, k, m') := _advance (rt_task t1) o m in
  (r, set_rt_task k t1, m').

(** The scheduler advancing a test once per entry of [steps], each entry
    being the resume outcome and the two clock readings. *)
Fixpoint run_test_advances (t : RunningTest) (steps : list (outcome * Z * Z))
    (m : machine) : RunningTest * machine :=
  match steps with
  | [] => (t, m)
  | (o, now, sim) :: rest =>
      let '(_, t', m') := RunningTest_advance t o now sim m in
      run_test_advances t' rest m'
  end.



(** A computation that suspends on [Timer(10)] and then returns 1. *)
Definition two_step_body : coro :=
  Coro (fun _ w => (SYield (PStr "Timer(10)") (Coro (fun _ w' => (SReturn (PInt 1), w'))), w)).

(** ** Helper lemmas *)

Lemma advance_raise_eq : forall t o m e w',
  coro_step (t_coro t) o (m_world m) = (SRaise e, w') ->
  exn_kind e <> KReturnValue ->
  _advance t o m =
    (Raise coroutine_complete,
     set_outcome (Error e) (set_coro (exhausted (t_natively_awaitable t)) (set_started true t)),
     set_world w' m).
Proof.
  intros t o m [k p tb] w' Hstep Hk. unfold _advance. rewrite Hstep.
  simpl in Hk |- *. destruct k; try (exfalso; apply Hk; reflexivity);
  unfold remove_traceback_frames, raised_through; simpl; reflexivity.
Qed.

Lemma retval_accesses_error : forall n e t,
  t_outcome t = Some (Error e) ->
  Forall (raises_like e) (retval_accesses n t).
Proof.
  induction n as [|n IH]; intros e t Ht; simpl; [constructor|].
  unfold retval at 1. rewrite Ht. constructor.
  - exists (raised_through ["retval"; "get"] e). repeat split.
  - apply (IH (raised_through ["retval"; "get"] e)). reflexivity.
Qed.

Lemma py_str_lt_app : forall p a b, py_str_lt (p ++ a) (p ++ b) = py_str_lt a b.
Proof.
  induction p as [|c p IH]; intros a b; simpl; [reflexivity|].
  rewrite Nat.ltb_irrefl, Nat.eqb_refl. apply IH.
Qed.

(** ** Claims *)

(** C1: [kill] is idempotent and forces completion without running the
    body.  On a task whose outcome is set it changes nothing; otherwise,
    whether or not the task was ever advanced, it stores [Value(None)], the
    task is finished, [retval] then returns [None], and neither the
    computation nor the program state it acts on is touched: the only other
    effect is the scheduler's [unschedule] request. *)
Theorem kill_idempotent_no_body : forall t m,
  match t_outcome t with
  | Some _ => kill t m = (t, m)
  | None =>
      let '(t', m') := kill t m in
      t_outcome t' = Some (Value PNone) /\ finished t' = true /\
      fst (retval t') = Ok PNone /\
      t_coro t' = t_coro t /\ t_started t' = t_started t /\
      m_world m' = m_world m /\ m_sched m' = (m_sched m ++ [Unschedule (t_id t)])%list /\
      kill t' m' = (t', m')
  end.
Proof.
  intros [id c na n q s cb [o|]] [w sch]; simpl; unfold kill; simpl;
    [reflexivity|].
  repeat split.
Qed.

(** C2: a failure (any exception other than [ReturnValue]) escaping the
    computation in [_advance] is stored as [Error] of that exception with
    the frames of [_advance] and [Outcome.send] stripped from its traceback,
    i.e. with the traceback it had when it left the computation; the
    scheduler sees a fresh [CoroutineComplete]; and every later read of
    [retval] raises an exception of the same class with the same payload. *)
Theorem advance_failure_stored : forall t o m e w',
  coro_step (t_coro t) o (m_world m) = (SRaise e, w') ->
  exn_kind e <> KReturnValue ->
  let '(r, t', m') := _advance t o m in
  r = Raise coroutine_complete /\
  t_outcome t' = Some (Error e) /\
  (forall n, Forall (raises_like e) (retval_accesses n t')).
Proof.
  intros t o m e w' Hstep Hk. rewrite (advance_raise_eq t o m e w' Hstep Hk).
  split; [reflexivity|]. split; [reflexivity|].
  intro n. apply retval_accesses_error. reflexivity.
Qed.

Lemma advance_failure_stored_witness :
  coro_step (t_coro cc_task) (Value PNone) (m_world empty_machine) = (SRaise cc_exn, []) /\
  exn_kind cc_exn <> KReturnValue /\
  (let '(r, t', m') := _advance cc_task (Value PNone) empty_machine in
   r = Raise coroutine_complete /\ t_outcome t' = Some (Error cc_exn) /\
   (forall n, Forall (raises_like cc_exn) (retval_accesses n t'))).
Proof.
  assert (Hs : coro_step (t_coro cc_task) (Value PNone) (m_world empty_machine)
               = (SRaise cc_exn, [])) by reflexivity.
  assert (Hk : exn_kind cc_exn <> KReturnValue) by discriminate.
  split; [exact Hs|]. split; [exact Hk|].
  exact (advance_failure_stored cc_task (Value PNone) empty_machine cc_exn [] Hs Hk).
Defined.

(** C3: before the outcome is set, [retval] raises
    [RuntimeError("coroutine is not complete")] and changes nothing; once
    it is set, [retval] returns the stored value, or raises the stored
    exception (the same object, which the raise updates in place). *)
Theorem retval_spec : forall t,
  match t_outcome t with
  | None =>
      retval t = (Raise (mk_exn KRuntimeError (PStr "coroutine is not complete") ["retval"]), t)
  | Some (Value v) => retval t = (Ok v, t)
  | Some (Error e) =>
      exists e', fst (retval t) = Raise e' /\
                 exn_kind e' = exn_kind e /\ exn_payload e' = exn_payload e /\
                 t_outcome (snd (retval t)) = Some (Error e')
  end.
Proof.
  intro t. unfold retval. destruct (t_outcome t) as [[v|e]|]; try reflexivity.
  exists (raised_through ["retval"; "get"] e). repeat split.
Qed.

(** C4: [abort] on a test whose outcome is set fails its assertion
    ([AssertionError]) and changes nothing; on a test not yet complete it
    stores [Error(exc)], requests [unschedule], and [retval] then raises
    [exc]. *)
Theorem abort_precondition_and_effect : forall t exc m,
  match t_outcome (rt_task t) with
  | Some _ => abort t exc m = (Raise assertion_error, t, m)
  | None =>
      let '(r, t', m') := abort t exc m in
      r = Ok tt /\ t_outcome (rt_task t') = Some (Error exc) /\
      finished (rt_task t') = true /\
      raises_like exc (fst (retval (rt_task t'))) /\
      m' = unschedule (t_id (rt_task t)) m
  end.
Proof.
  intros t exc m. unfold abort, finished.
  destruct (t_outcome (rt_task t)) as [o|] eqn:Ho; simpl; [reflexivity|].
  repeat split. exists (raised_through ["retval"; "get"] exc). repeat split.
Qed.

(** C6: a computation ending by returning [v], or by raising
    [ReturnValue(v)], leaves [Value(v)] as the stored outcome, and [retval]
    then returns [v]. *)
Theorem advance_return_value : forall t o m v w',
  (coro_step (t_coro t) o (m_world m) = (SReturn v, w') \/
   exists tb, coro_step (t_coro t) o (m_world m) = (SRaise (mk_exn KReturnValue v tb), w')) ->
  let '(r, t', m') := _advance t o m in
  r = Raise coroutine_complete /\ t_outcome t' = Some (Value v) /\
  retval t' = (Ok v, t').
Proof.
  intros t o m v w' [Hs | [tb Hs]]; unfold _advance; rewrite Hs; simpl;
    repeat split.
Qed.

Lemma advance_return_value_witness :
  (coro_step (t_coro flag_task) (Value PNone) (m_world empty_machine) = (SReturn (PInt 42), [("flag", PBool true)]) \/
   exists tb, coro_step (t_coro flag_task) (Value PNone) (m_world empty_machine)
              = (SRaise (mk_exn KReturnValue (PInt 42) tb), [("flag", PBool true)])) /\
  (let '(r, t', m') := _advance flag_task (Value PNone) empty_machine in
   r = Raise coroutine_complete /\ t_outcome t' = Some (Value (PInt 42)) /\
   retval t' = (Ok (PInt 42), t')).
Proof.
  assert (H : coro_step (t_coro flag_task) (Value PNone) (m_world empty_machine)
              = (SReturn (PInt 42), [("flag", PBool true)]) \/
              exists tb, coro_step (t_coro flag_task) (Value PNone) (m_world empty_machine)
              = (SRaise (mk_exn KReturnValue (PInt 42) tb), [("flag", PBool true)]))
    by (left; reflexivity).
  split; [exact H|].
  exact (advance_return_value flag_task (Value PNone) empty_machine (PInt 42) _ H).
Defined.

(** C5, counterexample: a body raising [CoroutineComplete] itself.  The
    [except BaseException] clause of [_advance] stores that exception as the
    task's [Error] outcome, and [retval] raises it again. *)
Lemma advance_coroutine_complete_visible :
  let '(r, t', _) := _advance cc_task (Value PNone) empty_machine in
  r = Raise coroutine_complete /\
  t_outcome t' = Some (Error cc_exn) /\
  exists e, fst (retval t') = Raise e /\ exn_kind e = KCoroutineComplete.
Proof.
  vm_compute. split; [reflexivity|]. split; [reflexivity|].
  eexists. split; reflexivity.
Qed.

(** C5, as the code does it: a [CoroutineComplete] raised by the
    computation is caught by [_advance] like any other failure.  The
    scheduler receives the fresh [CoroutineComplete] that [_advance] raises,
    while the computation's own exception is stored as the [Error] outcome
    and every later read of [retval] raises a [CoroutineComplete] with its
    payload. *)
Theorem advance_coroutine_complete_stored : forall t o m e w',
  coro_step (t_coro t) o (m_world m) = (SRaise e, w') ->
  exn_kind e = KCoroutineComplete ->
  let '(r, t', m') := _advance t o m in
  r = Raise coroutine_complete /\
  t_outcome t' = Some (Error e) /\
  (forall n, Forall (fun x => exists e', x = Raise e' /\ exn_kind e' = KCoroutineComplete /\
                                         exn_payload e' = exn_payload e)
                    (retval_accesses n t')).
Proof.
  intros t o m e w' Hstep Hk.
  rewrite (advance_raise_eq t o m e w' Hstep ltac:(rewrite Hk; discriminate)).
  split; [reflexivity|]. split; [reflexivity|].
  intro n. rewrite <- Hk.
  apply retval_accesses_error. reflexivity.
Qed.

Lemma advance_coroutine_complete_stored_witness :
  coro_step (t_coro cc_task) (Value PNone) (m_world empty_machine) = (SRaise cc_exn, []) /\
  exn_kind cc_exn = KCoroutineComplete /\
  (let '(r, t', m') := _advance cc_task (Value PNone) empty_machine in
   r = Raise coroutine_complete /\ t_outcome t' = Some (Error cc_exn) /\
   (forall n, Forall (fun x => exists e', x = Raise e' /\ exn_kind e' = KCoroutineComplete /\
                                          exn_payload e' = exn_payload cc_exn)
                     (retval_accesses n t'))).
Proof.
  assert (Hs : coro_step (t_coro cc_task) (Value PNone) (m_world empty_machine)
               = (SRaise cc_exn, [])) by reflexivity.
  assert (Hk : exn_kind cc_exn = KCoroutineComplete) by reflexivity.
  split; [exact Hs|]. split; [exact Hk|].
  exact (advance_coroutine_complete_stored cc_task (Value PNone) empty_machine cc_exn [] Hs Hk).
Defined.

(** C7: an object that is neither a coroutine nor a generator makes
    [RunningTask.__init__], and so the construction of a [RunningTest],
    raise [TypeError]: no task object is produced. *)
Theorem init_rejects_non_resumable : forall oid ver inst parent,
  (forall n q c, inst <> PyCoroutine n q c) ->
  (forall n q c, inst <> PyGenerator n q c) ->
  (exists e, RunningTask_init oid ver inst = Raise e /\ exn_kind e = KTypeError) /\
  (exists e, RunningTest_init oid ver inst parent = Raise e /\ exn_kind e = KTypeError).
Proof.
  intros oid ver inst parent Hc Hg.
  assert (H : exists e, RunningTask_init oid ver inst = Raise e /\ exn_kind e = KTypeError).
  { destruct inst as [n q c|n q c|n q|v].
    - exfalso. exact (Hc n q c eq_refl).
    - exfalso. exact (Hg n q c eq_refl).
    - simpl. destruct (_ && _); eexists; split; reflexivity.
    - simpl. unfold invalid_coroutine_message.
      destruct v as [| | | | |[|x [|y l]]]; eexists; split; reflexivity. }
  split; [exact H|].
  destruct H as [e [He Hk]]. exists e. unfold RunningTest_init. rewrite He. split; auto.
Qed.

Lemma init_rejects_non_resumable_witness :
  (forall n q c, PyPlain (PTuple [PInt 1; PInt 2]) <> PyCoroutine n q c) /\
  (forall n q c, PyPlain (PTuple [PInt 1; PInt 2]) <> PyGenerator n q c) /\
  (exists e, RunningTask_init 1 (3, 8) (PyPlain (PTuple [PInt 1; PInt 2])) = Raise e /\
             exn_kind e = KTypeError) /\
  (exists e, RunningTest_init 1 (3, 8) (PyPlain (PTuple [PInt 1; PInt 2]))
               (snd (test_init 0 (PlainFunc "t" "t" "tb" "") None None false (PBool false) false None))
             = Raise e /\ exn_kind e = KTypeError).
Proof.
  assert (Hc : forall n q c, PyPlain (PTuple [PInt 1; PInt 2]) <> PyCoroutine n q c)
    by (intros; discriminate).
  assert (Hg : forall n q c, PyPlain (PTuple [PInt 1; PInt 2]) <> PyGenerator n q c)
    by (intros; discriminate).
  split; [exact Hc|]. split; [exact Hg|].
  exact (init_rejects_non_resumable 1 (3, 8) _ _ Hc Hg).
Defined.

(** C8: [sort_name] writes the stage in decimal between module and function
    name (and leaves it out when there is no stage), so for two tests of
    one module with stages 10 and 2 the stage-10 key compares less than the
    stage-2 key as Python strings. *)
Theorem sort_name_stage_10_before_2 : forall t1 t2,
  rt_module t1 = rt_module t2 ->
  rt_stage t1 = Some 10%Z ->
  rt_stage t2 = Some 2%Z ->
  sort_name t1 = rt_module t1 ++ ".10." ++ rt_funcname t1 /\
  sort_name t2 = rt_module t2 ++ ".2." ++ rt_funcname t2 /\
  py_str_lt (sort_name t1) (sort_name t2) = true.
Proof.
  intros t1 t2 Hm H1 H2. unfold sort_name. rewrite H1, H2.
  change (py_int_str 10) with "10". change (py_int_str 2) with "2".
  split; [reflexivity|]. split; [reflexivity|].
  rewrite Hm, py_str_lt_app. reflexivity.
Qed.

Lemma sort_name_stage_10_before_2_witness :
  rt_module (staged_test 1 "fnD" (Some 10%Z)) = rt_module (staged_test 2 "fnE" (Some 2%Z)) /\
  rt_stage (staged_test 1 "fnD" (Some 10%Z)) = Some 10%Z /\
  rt_stage (staged_test 2 "fnE" (Some 2%Z)) = Some 2%Z /\
  py_str_lt (sort_name (staged_test 1 "fnD" (Some 10%Z)))
            (sort_name (staged_test 2 "fnE" (Some 2%Z))) = true.
Proof.
  assert (Hm : rt_module (staged_test 1 "fnD" (Some 10%Z))
               = rt_module (staged_test 2 "fnE" (Some 2%Z))) by reflexivity.
  assert (H1 : rt_stage (staged_test 1 "fnD" (Some 10%Z)) = Some 10%Z) by reflexivity.
  assert (H2 : rt_stage (staged_test 2 "fnE" (Some 2%Z)) = Some 2%Z) by reflexivity.
  split; [exact Hm|]. split; [exact H1|]. split; [exact H2|].
  exact (proj2 (proj2 (sort_name_stage_10_before_2 _ _ Hm H1 H2))).
Defined.

(** C9, counterexample: a record logged to the test's own logger
    ["cocotb.test.my_test"] reaches the handler but is not appended to the
    test's captured messages. *)
Lemma own_logger_record_not_captured :
  let r := mk_record (rt_log_name my_test) "checking" in
  rt_log_name my_test = "cocotb.test.my_test" /\
  rt_error_messages (ErrorLogHandler_handle r my_test) = rt_error_messages my_test /\
  rt_error_messages (ErrorLogHandler_handle r my_test) <> (rt_error_messages my_test ++ [format r])%list.
Proof.
  vm_compute. split; [reflexivity|]. split; [reflexivity|]. discriminate.
Qed.

(** C9, as the code does it: the handler appends the formatted record to
    the test's captured messages exactly when the record was logged to the
    logger named ["cocotb"] itself; records of every logger below it, among
    them the test's own ["cocotb.test.<qualname>"] and ["cocotb.scheduler"],
    are dropped.  The handler changes nothing else of the test. *)
Theorem handler_captures_only_cocotb_logger : forall r t suffix msg,
  rt_error_messages (ErrorLogHandler_handle r t) =
    (if String.eqb (rec_name r) "cocotb"
     then rt_error_messages t ++ [rec_msg r] else rt_error_messages t)%list /\
  rt_task (ErrorLogHandler_handle r t) = rt_task t /\
  rt_error_messages (ErrorLogHandler_handle (mk_record "cocotb" msg) t) =
    (rt_error_messages t ++ [msg])%list /\
  ErrorLogHandler_handle (mk_record ("cocotb." ++ suffix) msg) t = t.
Proof.
  intros r t suffix msg. unfold ErrorLogHandler_handle.
  split; [destruct (String.eqb (rec_name r) "cocotb"); reflexivity|].
  split; [destruct (String.eqb (rec_name r) "cocotb"); reflexivity|].
  split; [reflexivity|].
  simpl. reflexivity.
Qed.

(** C10, counterexample: [@cocotb.test(expect_error=ValueError)] stores the
    class [ValueError] itself, which is not a tuple. *)
Lemma expect_error_single_type_kept :
  let d := snd (test_init 0 (PlainFunc "t" "t" "tb" "") None None false
                  (PType "ValueError") false None) in
  td_expect_error d = PType "ValueError" /\ is_type_tuple (td_expect_error d) = false.
Proof.
  split; reflexivity.
Qed.

(** C10, as the code does it: [expect_error=True] is stored as
    [(Exception,)], [expect_error=False] as [()], and every other value,
    a single exception class or a tuple of them, is stored unchanged; the
    stored value is never a [bool]. *)
Theorem expect_error_normalised : forall n f tt tu ef ee sk st,
  let d := snd (test_init n f tt tu ef ee sk st) in
  match ee with
  | PBool true => td_expect_error d = PTuple [PType "Exception"]
  | PBool false => td_expect_error d = PTuple []
  | _ => td_expect_error d = ee
  end /\
  is_bool (td_expect_error d) = false.
Proof.
  intros n f tt tu ef ee sk st. simpl.
  destruct ee as [|[|]| | | |]; split; reflexivity.
Qed.

(** ** Further properties of the module *)


(** [public] keeps [__all__] free of duplicates. *)
Theorem public_preserves_nodup : forall name l,
  NoDup l -> NoDup (public name (Some l)).
Proof.
  intros name l Hl. unfold public.
  destruct (existsb (String.eqb name) l) eqn:He; [exact Hl|].
  apply NoDup_app; [exact Hl| constructor; [intros []| constructor] |].
  intros x Hx [Hy|[]]. subst x.
  assert (existsb (String.eqb name) l = true)
    by (apply existsb_exists; exists name; split; [exact Hx| apply String.eqb_refl]).
  congruence.
Qed.

Lemma public_preserves_nodup_witness :
  NoDup ["public"; "coroutine"] /\ NoDup (public "test" (Some ["public"; "coroutine"])).
Proof.
  assert (H : NoDup ["public"; "coroutine"])
    by (repeat constructor; simpl; intuition discriminate).
  split; [exact H|]. exact (public_preserves_nodup "test" _ H).
Defined.

(** An advance in which the computation yields returns the yielded request
    to the scheduler, marks the task started, keeps its outcome as it was
    (an unfinished task stays unfinished), and continues the computation
    from where it suspended. *)
Theorem advance_yield_suspends : forall t o m req k w',
  coro_step (t_coro t) o (m_world m) = (SYield req k, w') ->
  let '(r, t', m') := _advance t o m in
  r = Ok req /\ has_started t' = true /\ t_outcome t' = t_outcome t /\
  task_bool t' = task_bool t /\ t_coro t' = k /\ m_world m' = w'.
Proof.
  intros t o m req k w' Hs. unfold _advance. rewrite Hs.
  unfold task_bool, finished. simpl. repeat split.
Qed.

Lemma advance_yield_suspends_witness :
  coro_step two_step_body (Value PNone) [] =
    (SYield (PStr "Timer(10)") (Coro (fun _ w' => (SReturn (PInt 1), w'))), []) /\
  (let t := mk_task 9 two_step_body true "body" "body" false [] None in
   let '(r, t', m') := _advance t (Value PNone) empty_machine in
   r = Ok (PStr "Timer(10)") /\ has_started t' = true /\ t_outcome t' = t_outcome t /\
   task_bool t' = task_bool t /\ t_coro t' = Coro (fun _ w' => (SReturn (PInt 1), w')) /\
   m_world m' = []).
Proof.
  assert (H : coro_step (t_coro (mk_task 9 two_step_body true "body" "body" false [] None))
                (Value PNone) (m_world empty_machine) =
              (SYield (PStr "Timer(10)") (Coro (fun _ w' => (SReturn (PInt 1), w'))), []))
    by reflexivity.
  split; [exact H|].
  exact (advance_yield_suspends _ _ _ _ _ _ H).
Defined.

Lemma run_test_advances_keeps_start : forall steps t m,
  rt_started t = true ->
  let t' := fst (run_test_advances t steps m) in
  rt_started t' = true /\ rt_start_time t' = rt_start_time t /\
  rt_start_sim_time t' = rt_start_sim_time t.
Proof.
  induction steps as [|[[o now] sim] rest IH]; intros t m Hs; simpl; [auto|].
  unfold RunningTest_advance. rewrite Hs.
  destruct (_advance (rt_task t) o m) as [[r k] m'].
  destruct (IH (set_rt_task k t) m' Hs) as [H1 [H2 H3]].
  split; [exact H1|]. split; [exact H2| exact H3].
Qed.

(** The start of a test is recorded by its first advance only: after any
    run of advances of a test not yet started, its wall-clock and simulated
    start times are the clock readings of the first advance. *)
Theorem test_start_time_first_advance : forall t o now sim steps m,
  rt_started t = false ->
  let t' := fst (run_test_advances t ((o, now, sim) :: steps) m) in
  rt_started t' = true /\ rt_start_time t' = now /\ rt_start_sim_time t' = sim.
Proof.
  intros t o now sim steps m Hs. simpl. unfold RunningTest_advance. rewrite Hs.
  destruct (_advance (rt_task (set_rt_start now sim t)) o m) as [[r k] m'].
  apply (run_test_advances_keeps_start steps (set_rt_task k (set_rt_start now sim t)) m').
  reflexivity.
Qed.

Lemma test_start_time_first_advance_witness :
  rt_started my_test = false /\
  (let t' := fst (run_test_advances my_test
                    [(Value PNone, 1000%Z, 0%Z); (Value PNone, 1005%Z, 10%Z)] empty_machine) in
   rt_started t' = true /\ rt_start_time t' = 1000%Z /\ rt_start_sim_time t' = 0%Z).
Proof.
  assert (H : rt_started my_test = false) by reflexivity.
  split; [exact H|].
  exact (test_start_time_first_advance my_test (Value PNone) 1000 0 _ empty_machine H).
Defined.




(** For two tests of one module whose stages are single digits, the sort
    keys follow the numeric order of the stages. *)
Theorem sort_name_single_digit_stages : forall t1 t2 a b,
  rt_module t1 = rt_module t2 ->
  rt_stage t1 = Some a -> rt_stage t2 = Some b ->
  (0 <= a)%Z -> (a < b)%Z -> (b <= 9)%Z ->
  py_str_lt (sort_name t1) (sort_name t2) = true.
Proof.
  intros t1 t2 a b Hm H1 H2 Ha Hab Hb. unfold sort_name. rewrite H1, H2, Hm, py_str_lt_app.
  assert (Ea : a = 0%Z \/ a = 1%Z \/ a = 2%Z \/ a = 3%Z \/ a = 4%Z \/ a = 5%Z \/
               a = 6%Z \/ a = 7%Z \/ a = 8%Z) by lia.
  assert (Eb : b = 1%Z \/ b = 2%Z \/ b = 3%Z \/ b = 4%Z \/ b = 5%Z \/ b = 6%Z \/
               b = 7%Z \/ b = 8%Z \/ b = 9%Z) by lia.
  destruct Ea as [->|[->|[->|[->|[->|[->|[->|[->| ->]]]]]]]];
  destruct Eb as [->|[->|[->|[->|[->|[->|[->|[->| ->]]]]]]]];
  try lia; reflexivity.
Qed.

Lemma sort_name_single_digit_stages_witness :
  rt_module (staged_test 1 "fnB" (Some 1%Z)) = rt_module (staged_test 2 "fnC" (Some 2%Z)) /\
  py_str_lt (sort_name (staged_test 1 "fnB" (Some 1%Z)))
            (sort_name (staged_test 2 "fnC" (Some 2%Z))) = true.
Proof.
  assert (Hm : rt_module (staged_test 1 "fnB" (Some 1%Z))
               = rt_module (staged_test 2 "fnC" (Some 2%Z))) by reflexivity.
  split; [exact Hm|].
  apply (sort_name_single_digit_stages _ _ 1 2 Hm); first [reflexivity | lia].
Defined.

(** Tests of one module in the same stage (or both without a stage) are
    ordered by their function names. *)
Theorem sort_name_same_stage : forall t1 t2,
  rt_module t1 = rt_module t2 ->
  rt_stage t1 = rt_stage t2 ->
  py_str_lt (sort_name t1) (sort_name t2) = py_str_lt (rt_funcname t1) (rt_funcname t2).
Proof.
  intros t1 t2 Hm Hs. unfold sort_name. rewrite Hs, Hm.
  destruct (rt_stage t2); repeat rewrite py_str_lt_app; reflexivity.
Qed.

Lemma sort_name_same_stage_witness :
  rt_module (staged_test 1 "fnA" None) = rt_module (staged_test 2 "fnB" None) /\
  rt_stage (staged_test 1 "fnA" None) = rt_stage (staged_test 2 "fnB" None) /\
  py_str_lt (sort_name (staged_test 1 "fnA" None)) (sort_name (staged_test 2 "fnB" None))
    = py_str_lt "fnA" "fnB".
Proof.
  assert (Hm : rt_module (staged_test 1 "fnA" None) = rt_module (staged_test 2 "fnB" None))
    by reflexivity.
  assert (Hs : rt_stage (staged_test 1 "fnA" None) = rt_stage (staged_test 2 "fnB" None))
    by reflexivity.
  split; [exact Hm|]. split; [exact Hs|].
  exact (sort_name_same_stage _ _ Hm Hs).
Defined.




(** Every coroutine object and every generator is accepted, on any Python
    version; the new task is not started, not finished, has no callbacks,
    and is natively awaitable exactly when it wraps a coroutine object.
    Every other object is rejected. *)
Theorem init_accepts_coroutines_generators : forall oid ver inst,
  match inst with
  | PyCoroutine n q c =>
      RunningTask_init oid ver inst = Ok (mk_task oid c true n q false [] None)
  | PyGenerator n q c =>
      RunningTask_init oid ver inst = Ok (mk_task oid c false n q false [] None)
  | _ => forall t, RunningTask_init oid ver inst <> Ok t
  end /\
  (forall t, RunningTask_init oid ver inst = Ok t ->
     has_started t = false /\ task_bool t = true /\ t_callbacks t = [] /\ t_id t = oid).
Proof.
  intros oid ver inst.
  assert (Hrej : forall t, match inst with PyCoroutine _ _ _ | PyGenerator _ _ _ => True
                           | _ => RunningTask_init oid ver inst <> Ok t end).
  { intro t. destruct inst as [| |n q|v]; simpl; auto.
    - destruct (_ && _); discriminate.
    - destruct (invalid_coroutine_message v); discriminate. }
  split.
  - destruct inst; simpl; try reflexivity; intro t; exact (Hrej t).
  - intros t Ht. destruct inst as [n q c|n q c|n q|v]; simpl in Ht.
    + injection Ht as <-. repeat split.
    + injection Ht as <-. repeat split.
    + destruct (_ && _); discriminate.
    + destruct (invalid_coroutine_message v); discriminate.
Qed.
